(** * shell_with_default: a click group and a click_shell loop with a
      default command.

    Shallow embedding of [src/shell_with_default.py].

    The two classes of the module sit on top of external collaborators
    (click.Group / click_shell.Shell for the dispatcher, cmd.Cmd /
    click_shell.core.ClickShell for the interactive loop).  The methods
    reached through [super()] are not part of the repository: they are
    Variables of the sections below, and a small reference collaborator at
    the end of the file instantiates them for the concrete scenarios. *)

From Stdlib Require Import String Ascii List ZArith Bool Lia.
From stdpp Require Import base option strings list gmap.

Open Scope string_scope.
Open Scope list_scope.

(** ** Python values *)

(** The few Python values the module handles besides commands and token
    lists: keyword arguments of the constructor and of [command], the
    results of the loop hooks, and the builtin class [str] (which the
    unmatched-line hook hands to its super class). *)
Inductive pyval : Type :=
| PyNone
| PyBool (b : bool)
| PyInt (z : Z)
| PyStr (s : string)
| PyClass (qualname : string).

(** Truth value testing, as [if x:] does it. *)
Definition truthy (v : pyval) : bool :=
  match v with
  | PyNone => false
  | PyBool b => b
  | PyInt z => negb (Z.eqb z 0)
  | PyStr s => negb (String.eqb s "")
  | PyClass _ => true
  end.

(** The builtin [str]. *)
Definition builtin_str : pyval := PyClass "str".

(** ** Exceptions *)

(** [except Exception] catches the subclasses of [Exception]; it lets
    [KeyboardInterrupt], [SystemExit] and the other direct children of
    [BaseException] through. *)
Inductive exn : Type :=
| UsageError (message : string)      (* click.exceptions.UsageError *)
| IndexError                         (* args[0] on an empty list *)
| TypeError (message : string)
| ValueError (message : string)      (* shlex.split on an open quotation *)
| RecursionError                     (* the recursion limit is reached *)
| AssertionError
| KeyboardInterrupt
| SystemExit (code : Z).

Definition is_Exception (e : exn) : bool :=
  match e with
  | UsageError _ | IndexError | TypeError _ | ValueError _
  | RecursionError | AssertionError => true
  | KeyboardInterrupt | SystemExit _ => false
  end.

(** What running a piece of code gives: a value, a raised exception, or no
    outcome at all ([OutOfFuel]: a call into the collaborators that does not
    come back, such as the interactive loop while it runs; the methods of
    the module never end that way by themselves). *)
Inductive outcome (A : Type) : Type :=
| Return (a : A)
| Raise (e : exn)
| OutOfFuel.
Arguments Return {A} a.
Arguments Raise {A} e.
Arguments OutOfFuel {A}.

(** ** Commands, list objects, log *)

(** A click command is opaque to the module, which reads its [name] only.
    [ident] tells two command objects of the same name apart.  click.Command
    defines neither [__bool__] nor [__len__]: a command object is truthy.
    The commands meant are those the decorators build, which have a name; a
    command object made by hand with [name=None] is not represented. *)
Record Command : Type := { name : string; ident : nat }.

#[global] Instance Command_eq_dec : EqDecision Command.
Proof. solve_decision. Defined.

(** [List[str]] arguments are references to mutable list objects. *)
Abbreviation loc := nat.
Abbreviation heap := (gmap nat (list string)).

Inductive level : Type := DEBUG | INFO | WARNING | ERROR.


(** One constructor per [logging] call of the module; a list argument is
    recorded with the contents it has when the call is made. *)
Inductive message : Type :=
| Msg_constructing (attrs : gmap string pyval)
| Msg_running_precmd (line : string)
| Msg_running_onecmd (line : string)
| Msg_gives (v : pyval)
| Msg_unknown_trying (line alternative_cmd : string)
| Msg_found_default (args : list pyval) (kwargs : gmap string pyval)
| Msg_default_cmd_name (n : string)
| Msg_invoked
| Msg_parsing (args : option (list string))
| Msg_parsed_args (parsed_args : option (list string))
| Msg_trying_to_resolve (args : option (list string))
| Msg_resolved (cmd_name : option string) (args : option (list string)).

Inductive log_event : Type :=
| BasicConfig (lvl : level)
| LogRecord (lvl : level) (msg : message).


Section Embedding.

(** State owned by the super classes of the group (the command registry,
    prompt, ...), state of the outside world other than list objects
    (terminal output, history file, ...), and click's [Context]. *)
Variable BaseGroup : Type.
Variable World : Type.
Variable Context : Type.

(** ** The group object and the program state *)

Record Group : Type := {
  _debug_mode : pyval;
  _custom_parser : pyval;
  ignore_unknown_options : bool;
  _default_cmd : option Command;
  default_if_no_args : pyval;
  base : BaseGroup
}.

(** The part of the state super-class code runs on. *)
Record base_state : Type := {
  bgroup : BaseGroup;
  lists : heap;
  world : World
}.

(** The whole state: the group object ([self] in the group's methods,
    [self.ctx.command] in the loop's), the list objects, the outside world
    and what the [logging] calls of this module wrote so far (oldest
    first). *)
Record state : Type := {
  group : Group;
  objects : heap;
  outside : World;
  log : list log_event
}.

Definition M (A : Type) : Type := state → outcome A * state.
Definition B (A : Type) : Type := base_state → outcome A * base_state.

Definition ret {A} (a : A) : M A := fun st => (Return a, st).

Definition bind {A C} (m : M A) (k : A → M C) : M C :=
  fun st =>
    match m st with
    | (Return a, st') => k a st'
    | (Raise e, st') => (Raise e, st')
    | (OutOfFuel, st') => (OutOfFuel, st')
    end.

Notation "'let*' x ':=' m 'in' k" := (bind m (fun x => k))
  (at level 10, x pattern, m at level 100, k at level 200).
Notation "m ';;' k" := (bind m (fun _ => k))
  (at level 100, k at level 200, right associativity).

Definition with_base (g : Group) (b : BaseGroup) : Group :=
  {| _debug_mode := _debug_mode g;
     _custom_parser := _custom_parser g;
     ignore_unknown_options := ignore_unknown_options g;
     _default_cmd := _default_cmd g;
     default_if_no_args := default_if_no_args g;
     base := b |}.

Definition to_base (st : state) : base_state :=
  {| bgroup := base (group st); lists := objects st; world := outside st |}.

Definition of_base (st : state) (bs : base_state) : state :=
  {| group := with_base (group st) (bgroup bs);
     objects := lists bs;
     outside := world bs;
     log := log st |}.

(** A call through [super()]: the super class runs on its own part of the
    state; the fields the subclass added and the log stay as they are.
    Where click calls a method of the group back from inside such a call
    ([Group.resolve_command] reaches [parse_args] for a first token that
    looks like an option, [Group.invoke] reaches [resolve_command]), what
    the inner call does to the lists and to the outside world is part of
    the action; the records it logs are not kept. *)
Definition super {A} (m : B A) : M A :=
  fun st => let '(r, bs) := m (to_base st) in (r, of_base st bs).

Definition get_self : M Group := fun st => (Return (group st), st).

Definition snapshot (args : loc) : M (option (list string)) :=
  fun st => (Return (objects st !! args), st).

(** The state with more events logged. *)
Definition logged (st : state) (evs : list log_event) : state :=
  {| group := group st; objects := objects st;
     outside := outside st; log := log st ++ evs |}.

Definition emit (ev : log_event) : M unit :=
  fun st => (Return tt, logged st [ev]).

Definition logging_debug (m : message) : M unit := emit (LogRecord DEBUG m).
Definition logging_info (m : message) : M unit := emit (LogRecord INFO m).

(** [try: body except Exception: handler] *)
Definition try_except_Exception {A} (body handler : M A) : M A :=
  fun st =>
    match body st with
    | (Raise e, st') => if is_Exception e then handler st' else (Raise e, st')
    | r => r
    end.

(** ** ClickGroupWithDefault *)

Section Dispatcher.

(** The methods of the super classes: the initialiser of click_shell.Shell
    (four positional parameters, then keyword attributes), [Group.command]
    (which gives a decorator), [Group.parse_args], [Group.resolve_command]
    and [Group.invoke]. *)
Variable base_init : pyval → pyval → pyval → pyval → gmap string pyval →
                     heap → World → outcome BaseGroup * (heap * World).
Variable Body : Type.
Variable base_command : list pyval → gmap string pyval → Body → B Command.
Variable base_parse_args : Context → loc → B loc.
Variable base_resolve_command :
  Context → loc → B (option string * option Command * loc).
Variable base_invoke : Context → B pyval.

(** [attrs.pop(key, dflt)] *)
Definition pop (key : string) (dflt : pyval) (attrs : gmap string pyval)
  : pyval * gmap string pyval :=
  (default dflt (attrs !! key), delete key attrs).

(** [ClickGroupWithDefault.__init__]: the fields are set before the super
    class initialiser runs; [shell_cls] is passed by keyword next to
    [**attrs], which Python refuses when [attrs] has that key too.  The
    state the constructor starts from has no group yet, hence the explicit
    pieces. *)
Definition init (prompt intro hist_file on_finished : pyval)
    (attrs : gmap string pyval) (h : heap) (w : World) (lg : list log_event)
  : outcome Group * (heap * World * list log_event) :=
  let '(debug_mode, attrs) := pop "debug" (PyBool false) attrs in
  let lg := lg ++ [BasicConfig (if truthy debug_mode then DEBUG else INFO)] in
  let lg := lg ++ [LogRecord DEBUG (Msg_constructing attrs)] in
  let '(custom_parser, attrs) := pop "custom_parser" PyNone attrs in
  let '(if_no_args, attrs) := pop "default_if_no_args" (PyBool true) attrs in
  match attrs !! "shell_cls" with
  | Some _ =>
      (Raise (TypeError "got multiple values for keyword argument 'shell_cls'"),
       (h, w, lg))
  | None =>
      match base_init prompt intro hist_file on_finished
              (<["shell_cls" := PyClass "ClickShellWithDefault"]> attrs) h w with
      | (Return b, (h', w')) =>
          (Return {| _debug_mode := debug_mode;
                     _custom_parser := custom_parser;
                     ignore_unknown_options := true;
                     _default_cmd := None;
                     default_if_no_args := if_no_args;
                     base := b |}, (h', w', lg))
      | (Raise e, (h', w')) => (Raise e, (h', w', lg))
      | (OutOfFuel, (h', w')) => (OutOfFuel, (h', w', lg))
      end
  end.

(** [set_default_command] *)
Definition set_default_command (cmd : Command) : M unit :=
  logging_debug (Msg_default_cmd_name (name cmd)) ;;
  fun st =>
    (Return tt,
     {| group := {| _debug_mode := _debug_mode (group st);
                    _custom_parser := _custom_parser (group st);
                    ignore_unknown_options := ignore_unknown_options (group st);
                    _default_cmd := Some cmd;
                    default_if_no_args := default_if_no_args (group st);
                    base := base (group st) |};
        objects := objects st; outside := outside st; log := log st |}).

(** The [default_cmd_name] property. *)
Definition default_cmd_name (self : Group) : option string :=
  match _default_cmd self with
  | Some cmd => Some (name cmd)
  | None => None
  end.

(** [command]: gives the decorator to apply to the command body.  The
    closure [_decorator_with_default] keeps a reference to [self], so it
    acts on the group as it is when the decorator is applied. *)
Definition command (args : list pyval) (kwargs : gmap string pyval)
  : M (Body → M Command) :=
  let '(is_default, kwargs) := pop "default" (PyBool false) kwargs in
  let decorator := fun cmd_body => super (base_command args kwargs cmd_body) in
  if negb (truthy is_default) then ret decorator
  else
    logging_debug (Msg_found_default args kwargs) ;;
    ret (fun cmd_body =>
           let* cmd := decorator cmd_body in
           set_default_command cmd ;;
           ret cmd).

(** [invoke] *)
Definition invoke (ctx : Context) : M pyval :=
  logging_debug Msg_invoked ;;
  super (base_invoke ctx).

(** [parse_args] *)
Definition parse_args (ctx : Context) (args : loc) : M loc :=
  let* shown := snapshot args in
  logging_debug (Msg_parsing shown) ;;
  let* parsed_args := super (base_parse_args ctx args) in
  let* shown := snapshot parsed_args in
  logging_debug (Msg_parsed_args shown) ;;
  ret parsed_args.

(** [resolve_command] *)
Definition resolve_command (ctx : Context) (args : loc)
  : M (option string * option Command * loc) :=
  let* shown := snapshot args in
  logging_debug (Msg_trying_to_resolve shown) ;;
  let* (cmd_name, cmd, args) :=
     try_except_Exception
       (super (base_resolve_command ctx args))
       (let* self := get_self in
        ret (default_cmd_name self, _default_cmd self, args)) in
  let* shown := snapshot args in
  logging_debug (Msg_resolved cmd_name shown) ;;
  ret (cmd_name, cmd, args).

End Dispatcher.

(** ** ClickShellWithDefault *)

Section Loop.

(** The methods of the super classes of the loop.  [cmd.Cmd.onecmd] reaches
    the unmatched-line hook as [self.default], which dynamic dispatch binds
    to the subclass's method: the hook is an argument here. *)
Variable base_precmd : string → B string.
Variable base_onecmd : (string → M pyval) → string → M pyval.
Variable base_default : pyval → B pyval.

Definition of_optional (o : option string) : pyval :=
  match o with Some s => PyStr s | None => PyNone end.

(** [precmd] *)
Definition precmd (line : string) : M string :=
  logging_info (Msg_running_precmd line) ;;
  let* return_val := super (base_precmd line) in
  logging_info (Msg_gives (PyStr return_val)) ;;
  ret return_val.

(** The body of [onecmd], for a given binding of [self.default]. *)
Definition onecmd_with (self_default : string → M pyval) (line : string)
  : M pyval :=
  logging_info (Msg_running_onecmd line) ;;
  let* onecmd_return := base_onecmd self_default line in
  logging_info (Msg_gives onecmd_return) ;;
  ret onecmd_return.

(** The body of [default], for a given binding of [self.onecmd].  The super
    class is handed the builtin [str], not [line]. *)
Definition default_with (self_onecmd : string → M pyval) (line : string)
  : M pyval :=
  let* ctx_command := get_self in
  let default_cmd_name := default_cmd_name ctx_command in
  if truthy (of_optional default_cmd_name) then
    let alternative_cmd :=
      from_option id "" default_cmd_name +:+ " " +:+ line in
    logging_info (Msg_unknown_trying line alternative_cmd) ;;
    self_onecmd alternative_cmd
  else super (base_default builtin_str).

(** [onecmd] and [default] call each other through the super class; [fuel]
    is what is left of the recursion limit of the interpreter, counted in
    rounds of that recursion: when nothing is left, RecursionError is
    raised. *)
Fixpoint onecmd (fuel : nat) (line : string) : M pyval :=
  match fuel with
  | O => fun st => (Raise RecursionError, st)
  | S fuel' => onecmd_with (default_with (onecmd fuel')) line
  end.

(** [default] *)
Definition default (fuel : nat) (line : string) : M pyval :=
  default_with (onecmd fuel) line.

End Loop.

End Embedding.

Arguments Build_Group {BaseGroup}.
Arguments _debug_mode {BaseGroup}.
Arguments _custom_parser {BaseGroup}.
Arguments ignore_unknown_options {BaseGroup}.
Arguments _default_cmd {BaseGroup}.
Arguments default_if_no_args {BaseGroup}.
Arguments base {BaseGroup}.
Arguments Build_base_state {BaseGroup World}.
Arguments bgroup {BaseGroup World}.
Arguments lists {BaseGroup World}.
Arguments world {BaseGroup World}.
Arguments Build_state {BaseGroup World}.
Arguments group {BaseGroup World}.
Arguments objects {BaseGroup World}.
Arguments outside {BaseGroup World}.
Arguments log {BaseGroup World}.
Arguments ret {BaseGroup World A}.
Arguments bind {BaseGroup World A C}.
Arguments with_base {BaseGroup}.
Arguments to_base {BaseGroup World}.
Arguments of_base {BaseGroup World}.
Arguments super {BaseGroup World A}.
Arguments get_self {BaseGroup World}.
Arguments snapshot {BaseGroup World}.
Arguments logged {BaseGroup World}.
Arguments emit {BaseGroup World}.
Arguments logging_debug {BaseGroup World}.
Arguments logging_info {BaseGroup World}.
Arguments try_except_Exception {BaseGroup World A}.
Arguments init {BaseGroup World}.
Arguments set_default_command {BaseGroup World}.
Arguments default_cmd_name {BaseGroup}.
Arguments command {BaseGroup World Body}.
Arguments invoke {BaseGroup World Context}.
Arguments parse_args {BaseGroup World Context}.
Arguments resolve_command {BaseGroup World Context}.
Arguments precmd {BaseGroup World}.
Arguments onecmd_with {BaseGroup World}.
Arguments default_with {BaseGroup World}.
Arguments onecmd {BaseGroup World}.
Arguments default {BaseGroup World}.

Notation "'let*' x ':=' m 'in' k" := (bind m (fun x => k))
  (at level 10, x pattern, m at level 100, k at level 200).
Notation "m ';;' k" := (bind m (fun _ => k))
  (at level 100, k at level 200, right associativity).

(** ** The calls a client can make on a group *)

Section Calls.

Variable BaseGroup World Context Body : Type.
Variable base_command :
  list pyval → gmap string pyval → Body → B BaseGroup World Command.
Variable base_parse_args : Context → loc → B BaseGroup World loc.
Variable base_resolve_command :
  Context → loc → B BaseGroup World (option string * option Command * loc).
Variable base_invoke : Context → B BaseGroup World pyval.

(** One constructor per method of ClickGroupWithDefault ([command] together
    with the application of the decorator it gives). *)
Inductive call : Type :=
| Call_command (args : list pyval) (kwargs : gmap string pyval) (f : Body)
| Call_set_default_command (cmd : Command)
| Call_invoke (ctx : Context)
| Call_parse_args (ctx : Context) (args : loc)
| Call_resolve_command (ctx : Context) (args : loc).

(** The state a call leaves, whatever its outcome. *)
Definition perform (c : call) (st : state BaseGroup World)
  : state BaseGroup World :=
  match c with
  | Call_command args kwargs f =>
      snd ((let* decorator := command base_command args kwargs in
            decorator f) st)
  | Call_set_default_command cmd => snd (set_default_command cmd st)
  | Call_invoke ctx => snd (invoke base_invoke ctx st)
  | Call_parse_args ctx args => snd (parse_args base_parse_args ctx args st)
  | Call_resolve_command ctx args =>
      snd (resolve_command base_resolve_command ctx args st)
  end.

Definition perform_all (cs : list call) (st : state BaseGroup World)
  : state BaseGroup World :=
  fold_left (fun st c => perform c st) cs st.

End Calls.

Arguments Call_command {Context Body}.
Arguments Call_set_default_command {Context Body}.
Arguments Call_invoke {Context Body}.
Arguments Call_parse_args {Context Body}.
Arguments Call_resolve_command {Context Body}.
Arguments perform {BaseGroup World Context Body}.
Arguments perform_all {BaseGroup World Context Body}.

(** The group with another value in [default_if_no_args]. *)
Definition with_default_if_no_args {BaseGroup} (g : Group BaseGroup)
    (v : pyval) : Group BaseGroup :=
  {| _debug_mode := _debug_mode g;
     _custom_parser := _custom_parser g;
     ignore_unknown_options := ignore_unknown_options g;
     _default_cmd := _default_cmd g;
     default_if_no_args := v;
     base := base g |}.

Definition set_default_if_no_args {BaseGroup World}
    (v : pyval) (st : state BaseGroup World) : state BaseGroup World :=
  {| group := with_default_if_no_args (group st) v;
     objects := objects st; outside := outside st; log := log st |}.


(** The calls that can assign [_default_cmd]: [set_default_command], and
    [command] with a truthy [default] keyword. *)
Definition sets_default {Context Body} (c : call Context Body) : bool :=
  match c with
  | Call_command _ kwargs _ => truthy (fst (pop "default" (PyBool false) kwargs))
  | Call_set_default_command _ => true
  | _ => false
  end.

(** ** click_group_with_default *)

Section Factory.

(** [click.command] on the name and the attributes, which gives the decorator that builds
    the group. *)
Variable Decorator : Type.
Variable click_command : pyval → gmap string pyval → Decorator.

(** [attrs.setdefault(key, dflt)] *)
Definition setdefault (key : string) (dflt : pyval) (attrs : gmap string pyval)
  : gmap string pyval :=
  match attrs !! key with
  | Some _ => attrs
  | None => <[key := dflt]> attrs
  end.

(** [click_group_with_default]: the attributes as they are given, which is
    what [logging.info] is called on, and the decorator returned. *)
Definition click_group_with_default (name : pyval) (attrs : gmap string pyval)
  : gmap string pyval * Decorator :=
  let shown := attrs in
  let attrs := setdefault "cls" (PyClass "ClickGroupWithDefault") attrs in
  (shown, click_command name attrs).

End Factory.

Arguments click_group_with_default {Decorator}.

(** ** A reference collaborator

    A stand-in for the external collaborators, used to run the concrete
    scenarios: a registry of commands resolved by their first token the way
    click.Group does it (click 8.2 and later, for a group that declares no
    option of its own and ignores unknown options, as every
    ClickGroupWithDefault does), and a line interpreter that splits the
    command word off the way click_shell.ClickCmd does it.  Left out: the
    help option of the group, and the help, quit and exit commands of the
    loop. *)

Module Reference.

(** [self.commands] of click.Group, and a counter for fresh command
    objects. *)
Record registry : Type := {
  commands : gmap string Command;
  next_ident : nat
}.

(** Lines written to the terminal. *)
Definition terminal : Type := list string.

(** A command body is a Python function; its name is all that matters. *)
Record body : Type := { fname : string }.

Definition accepted_attrs : list string := ["name"; "help"; "shell_cls"].

(** The initialiser of the super classes: refuses unknown keywords, starts
    from an empty registry. *)
Definition base_init (prompt intro hist_file on_finished : pyval)
    (attrs : gmap string pyval) (h : heap) (w : terminal)
  : outcome registry * (heap * terminal) :=
  if forallb (fun k => bool_decide (k ∈ accepted_attrs)) (map fst (map_to_list attrs))
  then (Return {| commands := ∅; next_ident := 0 |}, (h, w))
  else (Raise (TypeError "unexpected keyword argument"), (h, w)).

(** The name click gives a command declared without one: the name of the
    function in lower case, underscores turned into dashes. *)
Definition dashed (c : ascii) : ascii :=
  let n := nat_of_ascii c in
  if Nat.eqb n 95 then "-"%char
  else if Nat.leb 65 n && Nat.leb n 90 then ascii_of_nat (n + 32)
  else c.

Definition command_name (f : body) : string :=
  string_of_list_ascii (map dashed (list_ascii_of_string (fname f))).

(** The decorator of [Group.command]: builds the command and registers it
    under its name. *)
Definition base_command (args : list pyval) (kwargs : gmap string pyval)
    (f : body) : B registry terminal Command :=
  fun bs =>
    let n := match kwargs !! "name" with
             | Some (PyStr s) => s
             | _ => command_name f
             end in
    let cmd := {| name := n; ident := next_ident (bgroup bs) |} in
    (Return cmd,
     {| bgroup := {| commands := <[n := cmd]> (commands (bgroup bs));
                     next_ident := S (next_ident (bgroup bs)) |};
        lists := lists bs; world := world bs |}).

Definition fresh_loc (h : heap) : loc := fresh (dom h).

Definition first_char (p : nat → bool) (t : string) : bool :=
  match t with
  | String c _ => p (nat_of_ascii c)
  | EmptyString => false
  end.

(** A token the option parser takes for an option: a dash, then more. *)
Definition is_option_token (t : string) : bool :=
  first_char (Nat.eqb 45) t && Nat.ltb 1 (String.length t).

(** The option parser, interspersed arguments off: it takes tokens off the
    front of the list it is given while they are options (unknown ones, set
    aside in order) and stops before the first other token, or after a
    lone double dash.  Gives the options set aside and what is left of the
    list. *)
Fixpoint parse_options (rargs : list string) : list string * list string :=
  match rargs with
  | [] => ([], [])
  | t :: rest =>
      if String.eqb t "--" then ([], rest)
      else if is_option_token t then
        let '(largs, rargs') := parse_options rest in (t :: largs, rargs')
      else ([], rargs)
  end.

(** [Group.parse_args]: the parser consumes the caller's list; the first of
    the tokens it gives back is kept in the context, a new list with the
    others is returned. *)
Definition base_parse_args (ctx : unit) (args : loc) : B registry terminal loc :=
  fun bs =>
    match lists bs !! args with
    | None => (Raise (TypeError "not a list"), bs)
    | Some tokens =>
        let '(largs, rargs) := parse_options tokens in
        let l := fresh_loc (lists bs) in
        (Return l,
         {| bgroup := bgroup bs;
            lists := <[l := tail (largs ++ rargs)]> (<[args := rargs]> (lists bs));
            world := world bs |})
    end.

Definition is_alnum (n : nat) : bool :=
  (Nat.leb 48 n && Nat.leb n 57) || (Nat.leb 65 n && Nat.leb n 90)
  || (Nat.leb 97 n && Nat.leb n 122).

(** A command name that looks like an option to [resolve_command]: it is
    not empty and does not start with a letter or a digit. *)
Definition looks_like_option (t : string) : bool :=
  first_char (fun n => negb (is_alnum n)) t.

(** [Group.resolve_command]: [args[0]] names the command, [args[1:]] (a new
    list) is what is left.  An unknown name fails, after another round of
    [parse_args] over the same list when the name looks like an option; in
    resilient parsing it gives no command instead. *)
Definition click_resolve_command (resilient_parsing : bool) (args : loc)
  : B registry terminal (option string * option Command * loc) :=
  fun bs =>
    match lists bs !! args with
    | None | Some [] => (Raise IndexError, bs)
    | Some (cmd_name :: rest) =>
        let l := fresh_loc (lists bs) in
        let sliced := {| bgroup := bgroup bs; lists := <[l := rest]> (lists bs);
                         world := world bs |} in
        match commands (bgroup bs) !! cmd_name with
        | Some cmd => (Return (Some cmd_name, Some cmd, l), sliced)
        | None =>
            if resilient_parsing then (Return (None, None, l), sliced)
            else
              (Raise (UsageError ("No such command '" +:+ cmd_name +:+ "'.")),
               if looks_like_option cmd_name
               then snd (base_parse_args tt args bs)
               else bs)
        end
    end.

(** The resolution in a context that is not in resilient parsing. *)
Definition base_resolve_command (ctx : unit) (args : loc)
  : B registry terminal (option string * option Command * loc) :=
  click_resolve_command false args.

Definition base_invoke (ctx : unit) : B registry terminal pyval :=
  fun bs => (Return PyNone, bs).

(** Running the body of a command on its arguments leaves a trace on the
    terminal; the bodies return None. *)
Definition run_command (cmd : Command) (args : list string)
  : B registry terminal pyval :=
  fun bs =>
    (Return PyNone,
     {| bgroup := bgroup bs; lists := lists bs;
        world := world bs ++ [String.concat " " (name cmd :: args)] |}).


Definition is_space (c : ascii) : bool :=
  let n := nat_of_ascii c in
  Nat.eqb n 32 || (Nat.leb 9 n && Nat.leb n 13).

(** The identifier characters of click_shell.ClickCmd: those of cmd.Cmd
    (letters, digits, underscore) and the dash. *)
Definition is_identchar (c : ascii) : bool :=
  let n := nat_of_ascii c in
  is_alnum n || Nat.eqb n 95 || Nat.eqb n 45.

Fixpoint lstrip (s : list ascii) : list ascii :=
  match s with
  | c :: s' => if is_space c then lstrip s' else s
  | [] => []
  end.

Definition strip (s : string) : string :=
  string_of_list_ascii
    (rev (lstrip (rev (lstrip (list_ascii_of_string s))))).

Fixpoint span (p : ascii → bool) (s : list ascii) : list ascii * list ascii :=
  match s with
  | c :: s' => if p c then let '(a, b) := span p s' in (c :: a, b) else ([], s)
  | [] => ([], [])
  end.

(** [shlex.split], POSIX rules: blanks separate the tokens, single quotes
    keep everything, double quotes keep everything but a backslash before a
    backslash or a double quote, a backslash outside quotes keeps the next
    character.  No result stands for the ValueError of an open quotation or
    a trailing backslash. *)
Inductive lex_state : Type :=
| InSpace
| InWord
| InQuote (q : nat)
| InEscape (in_double_quotes : bool).

Definition is_shlex_space (n : nat) : bool :=
  Nat.eqb n 32 || Nat.eqb n 9 || Nat.eqb n 13 || Nat.eqb n 10.

Definition token_of (reversed : list ascii) : string :=
  string_of_list_ascii (rev reversed).

Fixpoint shlex_tokens (state : lex_state) (token : list ascii)
    (s : list ascii) : option (list string) :=
  match s with
  | [] =>
      match state with
      | InSpace => Some []
      | InWord => Some [token_of token]
      | InQuote _ | InEscape _ => None
      end
  | c :: s' =>
      let n := nat_of_ascii c in
      match state with
      | InSpace =>
          if is_shlex_space n then shlex_tokens InSpace [] s'
          else if Nat.eqb n 92 then shlex_tokens (InEscape false) [] s'
          else if Nat.eqb n 39 || Nat.eqb n 34 then shlex_tokens (InQuote n) [] s'
          else shlex_tokens InWord [c] s'
      | InWord =>
          if is_shlex_space n then
            option_map (cons (token_of token)) (shlex_tokens InSpace [] s')
          else if Nat.eqb n 39 || Nat.eqb n 34 then shlex_tokens (InQuote n) token s'
          else if Nat.eqb n 92 then shlex_tokens (InEscape false) token s'
          else shlex_tokens InWord (c :: token) s'
      | InQuote q =>
          if Nat.eqb n q then shlex_tokens InWord token s'
          else if Nat.eqb n 92 && Nat.eqb q 34 then
            shlex_tokens (InEscape true) token s'
          else shlex_tokens (InQuote q) (c :: token) s'
      | InEscape true =>
          if Nat.eqb n 92 || Nat.eqb n 34
          then shlex_tokens (InQuote 34) (c :: token) s'
          else shlex_tokens (InQuote 34) (c :: ascii_of_nat 92 :: token) s'
      | InEscape false => shlex_tokens InWord (c :: token) s'
      end
  end.

Definition shlex_split (arg : string) : option (list string) :=
  shlex_tokens InSpace [] (list_ascii_of_string arg).

(** The [do_<name>] method click_shell gives the loop for a command: the
    command is run on the tokens of the rest of the line, an error on the
    way is reported, and False is returned in every case (the loop goes
    on). *)
Definition do_command (cmd : Command) (arg : string)
  : B registry terminal pyval :=
  fun bs =>
    match shlex_split arg with
    | Some tokens => (Return (PyBool false), snd (run_command cmd tokens bs))
    | None =>
        (Return (PyBool false),
         {| bgroup := bgroup bs; lists := lists bs;
            world := world bs ++ ["ValueError: No closing quotation"] |})
    end.

(** [cmd.Cmd.parseline] without the [?] and [!] shorthands. *)
Definition parseline (line : string) : option (string * string) * string :=
  let line := strip line in
  if String.eqb line "" then (None, line)
  else
    let '(c, a) := span is_identchar (list_ascii_of_string line) in
    (Some (string_of_list_ascii c, strip (string_of_list_ascii a)), line).

(** [cmd.Cmd.onecmd]: an empty line does nothing, a known command word
    runs its [do_] method on the rest of the line, anything else goes to
    the unmatched-line hook. *)
Definition base_onecmd (self_default : string → M registry terminal pyval)
    (line : string) : M registry terminal pyval :=
  fun st =>
    match parseline line with
    | (None, line) =>
        if String.eqb line "" then (Return (PyBool false), st)
        else self_default line st
    | (Some (cmd, arg), line) =>
        match commands (base (group st)) !! cmd with
        | Some c => super (do_command c arg) st
        | None => self_default line st
        end
    end.

Definition base_precmd (line : string) : B registry terminal string :=
  fun bs => (Return line, bs).

Definition show (v : pyval) : string :=
  match v with
  | PyNone => "None"
  | PyBool true => "True"
  | PyBool false => "False"
  | PyInt _ => "<int>"
  | PyStr s => s
  | PyClass n => "<class '" +:+ n +:+ "'>"
  end.

(** The unmatched-line handling of the super class: reports the line. *)
Definition base_default (line : pyval) : B registry terminal pyval :=
  fun bs =>
    (Return PyNone,
     {| bgroup := bgroup bs; lists := lists bs;
        world := world bs ++ ["No such command: " +:+ show line] |}).

Definition empty_group : Group registry :=
  {| _debug_mode := PyBool false; _custom_parser := PyNone;
     ignore_unknown_options := true; _default_cmd := None;
     default_if_no_args := PyBool true;
     base := {| commands := ∅; next_ident := 0 |} |}.

Definition start (h : heap) : state registry terminal :=
  {| group := empty_group; objects := h; outside := []; log := [] |}.

(** Declares a command: the decorator [command] gives for [kwargs], applied
    to [f]. *)
Definition declare (kwargs : gmap string pyval) (f : body)
  : M registry terminal Command :=
  let* decorator := command base_command [] kwargs in
  decorator f.

Definition wrapped_resolve_command :=
  resolve_command base_resolve_command.
Definition wrapped_default := default base_onecmd base_default.

Definition echo : body := {| fname := "echo" |}.
Definition add : body := {| fname := "add" |}.
Definition as_default : gmap string pyval := {["default" := PyBool true]}.

(** The keywords of a default declaration under the name [my.cmd]. *)
Definition as_dotted_default : gmap string pyval :=
  {["default" := PyBool true; "name" := PyStr "my.cmd"]}.

(** The groups of the scenarios: [echo] and [add] with [echo] the default,
    the same two without a default, [add] alone and the default, and a
    default command whose name has a dot. *)
Definition echo_default (h : heap) : state registry terminal :=
  snd ((declare as_default echo ;; declare ∅ add) (start h)).
Definition no_default (h : heap) : state registry terminal :=
  snd ((declare ∅ echo ;; declare ∅ add) (start h)).
Definition add_default (h : heap) : state registry terminal :=
  snd (declare as_default add (start h)).
Definition dotted_default (h : heap) : state registry terminal :=
  snd (declare as_dotted_default echo (start h)).

Definition echo_cmd : Command := {| name := "echo"; ident := 0 |}.
Definition add_cmd : Command := {| name := "add"; ident := 1 |}.


Definition sample_attrs : gmap string pyval :=
  {["debug" := PyBool true; "name" := PyStr "sample-shell"]}.

Definition sample_calls : list (call unit body) :=
  [Call_command [] ∅ add;
   Call_command [] as_default echo;
   Call_parse_args tt 0;
   Call_resolve_command tt 0;
   Call_set_default_command add_cmd;
   Call_invoke tt].

(** A decorator that refuses keywords click commands do not have. *)
Definition base_command_checked (args : list pyval)
    (kwargs : gmap string pyval) (f : body) : B registry terminal Command :=
  fun bs =>
    if forallb (fun k => bool_decide (k ∈ ["name"; "help"]))
         (map fst (map_to_list kwargs))
    then base_command args kwargs f bs
    else (Raise (TypeError "unexpected keyword argument"), bs).

(** A decorator that refuses the [default] keyword only. *)
Definition base_command_strict (args : list pyval)
    (kwargs : gmap string pyval) (f : body) : B registry terminal Command :=
  fun bs =>
    match kwargs !! "default" with
    | Some _ => (Raise (TypeError "unexpected keyword argument 'default'"), bs)
    | None => base_command args kwargs f bs
    end.

(** An initialiser that refuses the [debug] keyword only. *)
Definition base_init_strict (prompt intro hist_file on_finished : pyval)
    (attrs : gmap string pyval) (h : heap) (w : terminal)
  : outcome registry * (heap * terminal) :=
  match attrs !! "debug" with
  | Some _ => (Raise (TypeError "unexpected keyword argument 'debug'"), (h, w))
  | None => base_init prompt intro hist_file on_finished attrs h w
  end.

Definition read_only_calls : list (call unit body) :=
  [Call_command [] ∅ echo;
   Call_parse_args tt 0;
   Call_resolve_command tt 0;
   Call_invoke tt].

End Reference.

(** * Properties *)

Ltac run :=
  unfold resolve_command, parse_args, invoke, set_default_command, command,
    precmd, default, default_with, onecmd_with, try_except_Exception,
    super, bind, ret, get_self, snapshot, logging_debug, logging_info, emit;
  cbn [fst snd].

Section BaseFacts.

Context {BaseGroup World : Type}.
Implicit Types (st : state BaseGroup World) (bs : base_state BaseGroup World).

Lemma to_base_of_base st bs : to_base (of_base st bs) = bs.
Proof. by destruct bs. Qed.

Lemma to_base_logged st evs : to_base (logged st evs) = to_base st.
Proof. reflexivity. Qed.

Lemma bind_Return {A C} (m : M BaseGroup World A)
    (k : A → M BaseGroup World C) st a st' :
  m st = (Return a, st') → bind m k st = k a st'.
Proof. intros H. unfold bind. by rewrite H. Qed.



End BaseFacts.

Section DispatcherProperties.

Variable BaseGroup World Context Body : Type.
Variable base_init : pyval → pyval → pyval → pyval → gmap string pyval →
                     heap → World → outcome BaseGroup * (heap * World).
Variable base_command :
  list pyval → gmap string pyval → Body → B BaseGroup World Command.
Variable base_parse_args : Context → loc → B BaseGroup World loc.
Variable base_resolve_command :
  Context → loc → B BaseGroup World (option string * option Command * loc).
Variable base_invoke : Context → B BaseGroup World pyval.

Implicit Types (st : state BaseGroup World) (bs : base_state BaseGroup World).

Local Abbreviation resolve := (resolve_command base_resolve_command).

(** What [resolve_command] does, by the outcome of the super class. *)
Lemma resolve_command_eq ctx args st :
  resolve ctx args st =
  let st1 := logged st [LogRecord DEBUG (Msg_trying_to_resolve (objects st !! args))] in
  match base_resolve_command ctx args (to_base st) with
  | (Return (cmd_name, cmd, args'), bs) =>
      let st2 := of_base st1 bs in
      (Return (cmd_name, cmd, args'),
       logged st2 [LogRecord DEBUG (Msg_resolved cmd_name (lists bs !! args'))])
  | (Raise e, bs) =>
      let st2 := of_base st1 bs in
      if is_Exception e then
        (Return (default_cmd_name (group st), _default_cmd (group st), args),
         logged st2 [LogRecord DEBUG
                       (Msg_resolved (default_cmd_name (group st)) (lists bs !! args))])
      else (Raise e, st2)
  | (OutOfFuel, bs) => (OutOfFuel, of_base st1 bs)
  end.
Proof.
  run. rewrite to_base_logged.
  destruct (base_resolve_command ctx args (to_base st)) as [[[[n c] a]|e|] bs];
    cbn; try reflexivity.
  destruct (is_Exception e); reflexivity.
Qed.

(** The state [resolve_command] leaves is the one the super class leaves:
    the method writes to the log only. *)
Lemma resolve_command_to_base ctx args st :
  to_base (snd (resolve ctx args st)) =
  snd (base_resolve_command ctx args (to_base st)).
Proof.
  rewrite resolve_command_eq.
  destruct (base_resolve_command ctx args (to_base st)) as [[[[n c] a]|e|] bs];
    cbn; [| destruct (is_Exception e) |]; by destruct bs.
Qed.

Lemma fallback_result_eq ctx args st e bs :
  base_resolve_command ctx args (to_base st) = (Raise e, bs) →
  is_Exception e = true →
  fst (resolve ctx args st) =
  Return (default_cmd_name (group st), _default_cmd (group st), args).
Proof.
  intros Hb He. rewrite resolve_command_eq, Hb. cbn. by rewrite He.
Qed.

(** C4: when the resolution of the super class succeeds, [resolve_command]
    returns that very result and leaves the state the super class leaves,
    whatever the default command of the group is: a command the first
    token names is never replaced by the default. *)
Theorem resolve_command_base_success ctx args st r bs :
  base_resolve_command ctx args (to_base st) = (Return r, bs) →
  fst (resolve ctx args st) = Return r ∧
  to_base (snd (resolve ctx args st)) = bs.
Proof.
  intros Hb. split.
  - rewrite resolve_command_eq, Hb. by destruct r as [[n c] a].
  - by rewrite resolve_command_to_base, Hb.
Qed.


(** C8, amended: [resolve_command] writes to no list object itself.  The
    state it leaves is the state the super class leaves, so every list,
    the caller's too, holds after the call what the resolution of the
    super class left in it; on the fallback path the third component of
    the result is the caller's own list object, not a list built from it.
    The unmatched-line hook builds its combined command as a new string
    and touches the log only before it re-submits. *)
Theorem resolve_command_frame ctx args st :
  to_base (snd (resolve ctx args st)) =
    snd (base_resolve_command ctx args (to_base st)) ∧
  (∀ l, objects (snd (resolve ctx args st)) !! l =
        lists (snd (base_resolve_command ctx args (to_base st))) !! l) ∧
  (∀ e, fst (base_resolve_command ctx args (to_base st)) = Raise e →
        is_Exception e = true →
        ∃ cmd_name cmd, fst (resolve ctx args st) = Return (cmd_name, cmd, args)) ∧
  (∀ base_default self_onecmd line n,
     default_cmd_name (group st) = Some n → n ≠ "" →
     default_with base_default self_onecmd line st =
     self_onecmd (n +:+ " " +:+ line)
       (logged st [LogRecord INFO
                     (Msg_unknown_trying line (n +:+ " " +:+ line))])).
Proof.
  split; [apply resolve_command_to_base |].
  split; [| split].
  - intros l.
    change (lists (to_base (snd (resolve ctx args st))) !! l
            = lists (snd (base_resolve_command ctx args (to_base st))) !! l).
    by rewrite resolve_command_to_base.
  - intros e Hb He.
    destruct (base_resolve_command ctx args (to_base st)) as [r bs] eqn:Hrun.
    cbn in Hb. subst r.
    eexists _, _. by apply (fallback_result_eq _ _ _ _ _ Hrun He).
  - intros base_default self_onecmd line n Hn Hne. run.
    rewrite Hn. cbn.
    destruct (String.eqb_spec n ""); [done | reflexivity].
Qed.

(** C7: the value of [default_if_no_args] changes nothing in what
    [parse_args] and [resolve_command] do, for any context and any list of
    tokens (the empty one included): run on a state that differs in that
    field only, they give the same result and the same state, up to that
    field.  [parse_args] hands every list, so the empty one too, to the
    super class and returns what the super class returns; [resolve_command]
    starts by handing the list to the super class as it is. *)
Theorem default_if_no_args_inert ctx args st v :
  parse_args base_parse_args ctx args (set_default_if_no_args v st) =
    (fst (parse_args base_parse_args ctx args st),
     set_default_if_no_args v (snd (parse_args base_parse_args ctx args st))) ∧
  resolve ctx args (set_default_if_no_args v st) =
    (fst (resolve ctx args st),
     set_default_if_no_args v (snd (resolve ctx args st))) ∧
  fst (parse_args base_parse_args ctx args st) =
    fst (base_parse_args ctx args (to_base st)) ∧
  to_base (snd (parse_args base_parse_args ctx args st)) =
    snd (base_parse_args ctx args (to_base st)) ∧
  to_base (snd (resolve ctx args st)) =
    snd (base_resolve_command ctx args (to_base st)).
Proof.
  split; [| split; [| split; [| split]]].
  - run. change (to_base (logged (set_default_if_no_args v st) _))
      with (to_base st). rewrite to_base_logged.
    by destruct (base_parse_args ctx args (to_base st)) as [[a|e|] bs].
  - rewrite !resolve_command_eq.
    change (to_base (set_default_if_no_args v st)) with (to_base st).
    destruct (base_resolve_command ctx args (to_base st))
      as [[[[n c] a]|e|] bs]; cbn; [| destruct (is_Exception e) |];
      reflexivity.
  - run. rewrite to_base_logged.
    by destruct (base_parse_args ctx args (to_base st)) as [[a|e|] bs].
  - run. rewrite to_base_logged.
    by destruct (base_parse_args ctx args (to_base st)) as [[a|e|] [b l w]].
  - apply resolve_command_to_base.
Qed.

Local Abbreviation declare args kwargs f :=
  (let* decorator := command base_command args kwargs in decorator f).

(** What declaring a command does, by the [default] keyword. *)
Lemma declare_eq args kwargs f st :
  declare args kwargs f st =
  if negb (truthy (fst (pop "default" (PyBool false) kwargs))) then
    super (base_command args (delete "default" kwargs) f) st
  else
    let st1 := logged st [LogRecord DEBUG
                            (Msg_found_default args (delete "default" kwargs))] in
    match base_command args (delete "default" kwargs) f (to_base st) with
    | (Return cmd, bs) =>
        (Return cmd, snd (set_default_command cmd (of_base st1 bs)))
    | (Raise e, bs) => (Raise e, of_base st1 bs)
    | (OutOfFuel, bs) => (OutOfFuel, of_base st1 bs)
    end.
Proof.
  unfold command, pop. cbn [fst snd].
  destruct (negb (truthy _)); [reflexivity |].
  run. rewrite to_base_logged.
  by destruct (base_command _ _ f (to_base st)) as [[c|e|] bs].
Qed.


(** C10: a command declared with the [default] keyword absent or false is
    declared by the decorator of the super class alone (which registers
    it): the default command of the group is the one it was, set or not,
    and nothing is logged. *)
Theorem command_without_default_keeps_pointer args kwargs f st :
  kwargs !! "default" = None ∨ kwargs !! "default" = Some (PyBool false) →
  declare args kwargs f st =
    super (base_command args (delete "default" kwargs) f) st ∧
  _default_cmd (group (snd (declare args kwargs f st))) =
    _default_cmd (group st) ∧
  log (snd (declare args kwargs f st)) = log st.
Proof.
  intros Hk.
  assert (declare args kwargs f st =
          super (base_command args (delete "default" kwargs) f) st) as ->.
  { rewrite declare_eq. unfold pop. cbn [fst].
    by destruct Hk as [-> | ->]. }
  unfold super.
  by destruct (base_command _ _ f (to_base st)) as [r bs].
Qed.


Lemma perform_ignore_unknown_options (c : call Context Body) st :
  ignore_unknown_options
    (group (perform base_command base_parse_args base_resolve_command
              base_invoke c st)) =
  ignore_unknown_options (group st).
Proof.
  destruct c as [args kwargs f | cmd | ctx | ctx args | ctx args]; cbn [perform].
  - rewrite declare_eq. destruct (negb _).
    + unfold super. by destruct (base_command _ _ f (to_base st)) as [r bs].
    + by destruct (base_command _ _ f (to_base st)) as [[c|e|] bs].
  - reflexivity.
  - run. rewrite to_base_logged.
    by destruct (base_invoke ctx (to_base st)) as [r bs].
  - run. rewrite to_base_logged.
    by destruct (base_parse_args ctx args (to_base st)) as [[a|e|] bs].
  - rewrite resolve_command_eq.
    destruct (base_resolve_command ctx args (to_base st))
      as [[[[n c] a]|e|] bs]; cbn; [| destruct (is_Exception e) |];
      reflexivity.
Qed.

(** C9: a group the constructor returns has [ignore_unknown_options] true,
    whatever the keyword attributes it was called with, and the flag is
    still true after any sequence of calls of the methods of the group. *)
Theorem ignore_unknown_options_always_true
    prompt intro hist_file on_finished attrs h w lg g h' w' lg'
    (cs : list (call Context Body)) :
  init base_init prompt intro hist_file on_finished attrs h w lg
    = (Return g, (h', w', lg')) →
  ignore_unknown_options g = true ∧
  ignore_unknown_options
    (group (perform_all base_command base_parse_args base_resolve_command
              base_invoke cs
              {| group := g; objects := h'; outside := w'; log := lg' |}))
    = true.
Proof.
  intros Hinit.
  assert (ignore_unknown_options g = true) as Hg.
  { unfold init, pop in Hinit. cbn [fst snd] in Hinit.
    destruct (_ !! "shell_cls"); [discriminate |].
    destruct (base_init _ _ _ _ _ h w) as [[b|e|] [h1 w1]];
      [| discriminate..].
    by injection Hinit as <- _ _ _. }
  split; [exact Hg |].
  set (st0 := {| group := g |}).
  change (ignore_unknown_options (group st0) = true) in Hg.
  clearbody st0. revert st0 Hg.
  induction cs as [| c cs IH]; intros st0 Hg; [exact Hg |].
  cbn. apply IH. by rewrite perform_ignore_unknown_options.
Qed.

End DispatcherProperties.

Section LoopProperties.

Variable BaseGroup World : Type.
Variable base_onecmd :
  (string → M BaseGroup World pyval) → string → M BaseGroup World pyval.
Variable base_default : pyval → B BaseGroup World pyval.

Implicit Types (st : state BaseGroup World).

(** Without a default command (or with one whose name is empty), the hook
    calls the unmatched-line handling of the super class on the builtin
    [str], whatever the line is. *)
Lemma default_without_default_cmd fuel line st :
  default_cmd_name (group st) = None ∨ default_cmd_name (group st) = Some "" →
  default base_onecmd base_default fuel line st =
  super (base_default builtin_str) st.
Proof. intros [H | H]; run; by rewrite H. Qed.

Lemma default_with_default_cmd fuel line st n :
  default_cmd_name (group st) = Some n → n ≠ "" →
  default base_onecmd base_default fuel line st =
  onecmd base_onecmd base_default fuel (n +:+ " " +:+ line)
    (logged st [LogRecord INFO (Msg_unknown_trying line (n +:+ " " +:+ line))]).
Proof.
  intros Hn Hne. run. rewrite Hn. cbn.
  destruct (String.eqb_spec n ""); [done | reflexivity].
Qed.


End LoopProperties.

(** * The scenarios, on the reference collaborator *)

Import Reference.

(** Scenario 1: [echo] is the default, [hello] names no command. *)
Example scenario_hello_world :
  fst (wrapped_resolve_command tt 0 (echo_default {[0 := ["hello"; "world"]]}))
  = Return (Some "echo", Some echo_cmd, 0).
Proof. vm_compute. reflexivity. Qed.

(** Scenario 2: [add] is named, the default stays out of the way. *)
Example scenario_add_1_2 :
  let out := wrapped_resolve_command tt 0 (echo_default {[0 := ["add"; "1"; "2"]]}) in
  fst out = Return (Some "add", Some add_cmd, 1) ∧
  objects (snd out) !! 1 = Some ["1"; "2"] ∧
  objects (snd out) !! 0 = Some ["add"; "1"; "2"].
Proof. vm_compute. repeat split; reflexivity. Qed.

(** Scenario 4: [add] is the default, the line [3 4] is unmatched. *)
Example scenario_3_4 :
  let out := wrapped_default 1 "3 4" (add_default ∅) in
  fst out = Return (PyBool false) ∧ outside (snd out) = ["add 3 4"].
Proof. vm_compute. split; reflexivity. Qed.

Lemma fresh_loc_ne (h : heap) l T : h !! l = Some T → fresh_loc h ≠ l.
Proof.
  intros Hl Heq. apply (is_fresh (dom h)). fold (fresh_loc h).
  rewrite Heq. by apply elem_of_dom_2 in Hl.
Qed.

(** The reference resolution leaves the caller's list alone unless its
    first token looks like an option. *)
Lemma reference_resolve_keeps_list args (st : state registry terminal) :
  (∀ t rest, objects st !! args = Some (t :: rest) →
             looks_like_option t = false) →
  objects (snd (wrapped_resolve_command tt args st)) !! args
  = objects st !! args.
Proof.
  intros Hplain.
  change (lists (to_base (snd (wrapped_resolve_command tt args st))) !! args
          = lists (to_base st) !! args).
  unfold wrapped_resolve_command. rewrite resolve_command_to_base.
  unfold base_resolve_command, click_resolve_command.
  destruct (lists (to_base st) !! args) as [[| t rest] |] eqn:Hargs;
    [exact Hargs | | exact Hargs].
  destruct (commands (bgroup (to_base st)) !! t).
  - cbn [snd lists]. rewrite lookup_insert_ne; [exact Hargs |].
    by apply (fresh_loc_ne _ _ _ Hargs).
  - cbn [snd]. by rewrite (Hplain t rest Hargs).
Qed.

(** On the reference collaborator, a first token that names no registered
    command goes to the default command; the list is whole when that
    token does not look like an option. *)
Lemma reference_unmatched_first_token args (st : state registry terminal)
    t rest D :
  objects st !! args = Some (t :: rest) →
  commands (base (group st)) !! t = None →
  looks_like_option t = false →
  _default_cmd (group st) = Some D →
  fst (wrapped_resolve_command tt args st)
    = Return (Some (name D), Some D, args) ∧
  objects (snd (wrapped_resolve_command tt args st)) !! args
    = Some (t :: rest).
Proof.
  intros Hargs Ht Hplain HD. split.
  - unfold wrapped_resolve_command.
    rewrite (fallback_result_eq _ _ _ base_resolve_command tt args st
               (UsageError ("No such command '" +:+ t +:+ "'.")) (to_base st)).
    + unfold default_cmd_name. by rewrite HD.
    + unfold base_resolve_command, click_resolve_command.
      change (lists (to_base st)) with (objects st). rewrite Hargs.
      change (bgroup (to_base st)) with (base (group st)).
      by rewrite Ht, Hplain.
    + reflexivity.
  - rewrite reference_resolve_keeps_list; [exact Hargs |].
    intros t' rest' H'. rewrite Hargs in H'. by injection H' as <- _.
Qed.

(** When that token looks like an option, the options at the front of the
    caller's list are gone by the time the default command is returned. *)
Lemma reference_unmatched_option_token args (st : state registry terminal)
    t rest D :
  objects st !! args = Some (t :: rest) →
  commands (base (group st)) !! t = None →
  looks_like_option t = true →
  _default_cmd (group st) = Some D →
  fst (wrapped_resolve_command tt args st)
    = Return (Some (name D), Some D, args) ∧
  objects (snd (wrapped_resolve_command tt args st)) !! args
    = Some (snd (parse_options (t :: rest))).
Proof.
  intros Hargs Ht Hopt HD.
  assert (base_resolve_command tt args (to_base st)
          = (Raise (UsageError ("No such command '" +:+ t +:+ "'.")),
             snd (base_parse_args tt args (to_base st)))) as Hb.
  { unfold base_resolve_command, click_resolve_command.
    change (lists (to_base st)) with (objects st). rewrite Hargs.
    change (bgroup (to_base st)) with (base (group st)).
    by rewrite Ht, Hopt. }
  split.
  - unfold wrapped_resolve_command.
    rewrite (fallback_result_eq _ _ _ base_resolve_command tt args st _ _ Hb)
      by reflexivity.
    unfold default_cmd_name. by rewrite HD.
  - change (lists (to_base (snd (wrapped_resolve_command tt args st))) !! args
            = Some (snd (parse_options (t :: rest)))).
    unfold wrapped_resolve_command. rewrite resolve_command_to_base, Hb.
    cbn [snd]. unfold base_parse_args.
    change (lists (to_base st)) with (objects st). rewrite Hargs.
    destruct (parse_options (t :: rest)) as [largs rargs].
    cbn [snd lists]. rewrite lookup_insert_ne by (by apply (fresh_loc_ne _ _ _ Hargs)).
    apply lookup_insert_eq.
Qed.

(** C1: no default command, the tokens [bogus]: the super class raises
    its UsageError, and [resolve_command] does not: it returns
    [(None, None, args)]. *)
Theorem resolve_command_bogus_no_default :
  fst (base_resolve_command tt 0 (to_base (no_default {[0 := ["bogus"]]})))
    = Raise (UsageError "No such command 'bogus'.") ∧
  fst (wrapped_resolve_command tt 0 (no_default {[0 := ["bogus"]]}))
    = Return (None, None, 0).
Proof. vm_compute. split; reflexivity. Qed.

(** C3: no default command, the line [bogus]: the hook calls the
    unmatched-line handling of the super class, which then reports the
    builtin [str] where handling the line itself reports [bogus]. *)
Theorem default_bogus_no_default :
  wrapped_default 1 "bogus" (no_default ∅)
    = super (base_default builtin_str) (no_default ∅) ∧
  outside (snd (wrapped_default 1 "bogus" (no_default ∅)))
    = ["No such command: <class 'str'>"] ∧
  outside (snd (super (base_default (PyStr "bogus")) (no_default ∅)))
    = ["No such command: bogus"].
Proof. vm_compute. repeat split; reflexivity. Qed.

Lemma resolve_command_base_success_witness :
  fst (wrapped_resolve_command tt 0 (echo_default {[0 := ["add"; "1"; "2"]]}))
    = Return (Some "add", Some add_cmd, 1) ∧
  to_base (snd (wrapped_resolve_command tt 0
                  (echo_default {[0 := ["add"; "1"; "2"]]})))
    = snd (base_resolve_command tt 0
             (to_base (echo_default {[0 := ["add"; "1"; "2"]]}))).
Proof.
  apply (resolve_command_base_success _ _ _ base_resolve_command tt 0
           (echo_default {[0 := ["add"; "1"; "2"]]})).
  vm_compute. reflexivity.
Defined.



Lemma resolve_command_frame_witness :
  ∃ cmd_name cmd,
    fst (wrapped_resolve_command tt 0 (echo_default {[0 := ["-x"; "hello"]]}))
    = Return (cmd_name, cmd, 0).
Proof.
  destruct (resolve_command_frame _ _ _ base_resolve_command tt 0
              (echo_default {[0 := ["-x"; "hello"]]})) as (_ & _ & H & _).
  apply (H (UsageError "No such command '-x'.")); vm_compute; reflexivity.
Defined.

(** C8, as stated, fails: the caller's list holds [--verbose; -x; 3]
    before [resolve_command] and [3] after it, on the fallback path. *)
Lemma resolve_command_list_edited :
  objects (echo_default {[0 := ["--verbose"; "-x"; "3"]]}) !! 0
    = Some ["--verbose"; "-x"; "3"] ∧
  fst (wrapped_resolve_command tt 0
         (echo_default {[0 := ["--verbose"; "-x"; "3"]]}))
    = Return (Some "echo", Some echo_cmd, 0) ∧
  objects (snd (wrapped_resolve_command tt 0
                  (echo_default {[0 := ["--verbose"; "-x"; "3"]]}))) !! 0
    = Some ["3"].
Proof. vm_compute. repeat split; reflexivity. Qed.

Lemma command_without_default_keeps_pointer_witness :
  _default_cmd (group (snd (declare ∅ add (add_default ∅))))
    = Some {| name := "add"; ident := 0 |}.
Proof.
  destruct (command_without_default_keeps_pointer _ _ _ base_command
              [] ∅ add (add_default ∅)) as (_ & H & _).
  - left. reflexivity.
  - exact H.
Defined.


Lemma ignore_unknown_options_always_true_witness :
  ignore_unknown_options
    (group (perform_all base_command base_parse_args base_resolve_command
              base_invoke sample_calls
              {| group := {| _debug_mode := PyBool true;
                             _custom_parser := PyNone;
                             ignore_unknown_options := true;
                             _default_cmd := None;
                             default_if_no_args := PyBool true;
                             base := {| commands := ∅; next_ident := 0 |} |};
                 objects := {[0 := ["hello"]]};
                 outside := [];
                 log := [BasicConfig DEBUG;
                         LogRecord DEBUG
                           (Msg_constructing {["name" := PyStr "sample-shell"]})] |}))
    = true.
Proof.
  apply (ignore_unknown_options_always_true _ _ _ _ base_init base_command
           base_parse_args base_resolve_command base_invoke
           (PyStr "sample $ ") PyNone PyNone PyNone sample_attrs
           {[0 := ["hello"]]} [] []).
  vm_compute. reflexivity.
Defined.

(** A caller that passes [ignore_unknown_options=False] gets no group: the
    keyword reaches the initialiser of the super class, which refuses it. *)
Example init_refuses_ignore_unknown_options :
  fst (init base_init PyNone PyNone PyNone PyNone
         {["ignore_unknown_options" := PyBool false]} ∅ [] [])
  = Raise (TypeError "unexpected keyword argument").
Proof. vm_compute. reflexivity. Qed.


(** A default command whose name is empty counts as none for the hook. *)
Example default_empty_name :
  let st := snd (declare {["default" := PyBool true; "name" := PyStr ""]} echo
                   (start ∅)) in
  _default_cmd (group st) = Some {| name := ""; ident := 0 |} ∧
  outside (snd (wrapped_default 1 "3 4" st))
    = ["No such command: <class 'str'>"].
Proof. vm_compute. split; reflexivity. Qed.

Lemma lstrip_keeps a d b :
  is_space d = false → ∃ a', lstrip (a ++ d :: b) = a' ++ d :: b.
Proof.
  intros Hd. induction a as [| c a IH]; cbn.
  - exists []. by rewrite Hd.
  - destruct (is_space c); [exact IH | by exists (c :: a)].
Qed.

Lemma strip_my_cmd x : ∃ y, strip ("my.cmd" +:+ x) = "my.cmd" +:+ y.
Proof.
  unfold strip.
  set (p := list_ascii_of_string "my.cmd").
  change (list_ascii_of_string ("my.cmd" +:+ x))
    with (p ++ list_ascii_of_string x).
  change (lstrip (p ++ list_ascii_of_string x))
    with (p ++ list_ascii_of_string x).
  rewrite rev_app_distr.
  destruct (lstrip_keeps (rev (list_ascii_of_string x)) "d"%char
              (tl (rev p)) eq_refl) as [a' Ha].
  change (rev p) with ("d"%char :: tl (rev p)).
  rewrite Ha.
  change ("d"%char :: tl (rev p)) with (rev p).
  rewrite rev_app_distr, rev_involutive.
  exists (string_of_list_ascii (rev a')). reflexivity.
Qed.

Lemma parseline_my_cmd x :
  ∃ a y, parseline ("my.cmd" +:+ x) = (Some ("my", a), "my.cmd" +:+ y).
Proof.
  unfold parseline. destruct (strip_my_cmd x) as [y ->].
  eexists _, y. reflexivity.
Qed.



(** * More properties of the group *)

Lemma logged_logged {BaseGroup World} (st : state BaseGroup World) a b :
  logged (logged st a) b = logged st (a ++ b).
Proof. unfold logged. cbn. by rewrite app_assoc. Qed.

Section MoreDispatcherProperties.

Variable BaseGroup World Context Body : Type.
Variable base_command :
  list pyval → gmap string pyval → Body → B BaseGroup World Command.
Variable base_parse_args : Context → loc → B BaseGroup World loc.
Variable base_resolve_command :
  Context → loc → B BaseGroup World (option string * option Command * loc).
Variable base_invoke : Context → B BaseGroup World pyval.

Implicit Types (st : state BaseGroup World) (bs : base_state BaseGroup World).

Local Abbreviation resolve := (resolve_command base_resolve_command).
Local Abbreviation declare args kwargs f :=
  (let* decorator := command base_command args kwargs in decorator f).
Local Abbreviation perform1 :=
  (perform base_command base_parse_args base_resolve_command base_invoke).
Local Abbreviation perform_seq :=
  (perform_all base_command base_parse_args base_resolve_command base_invoke).

(** [resolve_command] raises exactly when the super class raises something
    that is not an Exception, and then raises that: no subclass of
    Exception ever leaves the method, with or without a default command. *)
Theorem resolve_command_raises ctx args st e :
  fst (resolve ctx args st) = Raise e ↔
  fst (base_resolve_command ctx args (to_base st)) = Raise e ∧
  is_Exception e = false.
Proof.
  rewrite resolve_command_eq.
  destruct (base_resolve_command ctx args (to_base st))
    as [[[[n c] a]|e'|] bs]; cbn.
  - split; [discriminate | intros [? _]; discriminate].
  - destruct (is_Exception e') eqn:He'; cbn.
    + split; [discriminate |]. intros [[= ->] He]. congruence.
    + split; [intros [= ->]; by split | by intros [? _]].
  - split; [discriminate | intros [? _]; discriminate].
Qed.

(** Without a default command, a resolution the super class fails with a
    subclass of Exception does not fail: [resolve_command] returns
    [(None, None, args)], in the state the super class left. *)
Theorem resolve_command_without_default ctx args st e bs :
  _default_cmd (group st) = None →
  base_resolve_command ctx args (to_base st) = (Raise e, bs) →
  is_Exception e = true →
  fst (resolve ctx args st) = Return (None, None, args) ∧
  to_base (snd (resolve ctx args st)) = bs.
Proof.
  intros HD Hb He. split.
  - rewrite (fallback_result_eq _ _ _ _ _ _ _ _ _ Hb He).
    unfold default_cmd_name. by rewrite HD.
  - by rewrite resolve_command_to_base, Hb.
Qed.

Ltac by_call c st :=
  destruct c as [args kwargs f | cmd | ctx | ctx args | ctx args];
  cbn [perform];
  [ rewrite declare_eq; destruct (negb _) eqn:Hflag;
    [ unfold super; destruct (base_command _ _ f (to_base st)) as [r bs]
    | destruct (base_command _ _ f (to_base st)) as [[c|e|] bs] ]
  |
  | run; rewrite to_base_logged;
    destruct (base_invoke ctx (to_base st)) as [r bs]
  | run; rewrite to_base_logged;
    destruct (base_parse_args ctx args (to_base st)) as [[a|e|] bs]
  | rewrite resolve_command_eq;
    destruct (base_resolve_command ctx args (to_base st))
      as [[[[n c] a]|e|] bs]; cbn; [| destruct (is_Exception e) |] ].

Lemma perform_configuration (c : call Context Body) st :
  _debug_mode (group (perform1 c st)) = _debug_mode (group st) ∧
  _custom_parser (group (perform1 c st)) = _custom_parser (group st) ∧
  default_if_no_args (group (perform1 c st)) = default_if_no_args (group st).
Proof. by_call c st; by repeat split. Qed.

(** What the constructor stored in [_debug_mode], [_custom_parser] and
    [default_if_no_args] is what these fields hold after any calls of the
    methods of the group. *)
Theorem calls_keep_configuration (cs : list (call Context Body)) st :
  _debug_mode (group (perform_seq cs st)) = _debug_mode (group st) ∧
  _custom_parser (group (perform_seq cs st)) = _custom_parser (group st) ∧
  default_if_no_args (group (perform_seq cs st)) = default_if_no_args (group st).
Proof.
  revert st. induction cs as [| c cs IH]; intros st; [done |].
  change (perform_seq (c :: cs) st) with (perform_seq cs (perform1 c st)).
  destruct (IH (perform1 c st)) as (-> & -> & ->).
  apply perform_configuration.
Qed.

Lemma perform_default_cmd (c : call Context Body) st :
  sets_default c = false →
  _default_cmd (group (perform1 c st)) = _default_cmd (group st).
Proof.
  intros Hc. by_call c st; try reflexivity; unfold sets_default in Hc;
    first [discriminate | rewrite Hc in Hflag; discriminate].
Qed.

(** The default command changes through [set_default_command] and through
    declarations with a truthy [default] only: any calls of [invoke],
    [parse_args], [resolve_command] and declarations without [default]
    leave it as it is. *)
Theorem calls_keep_default_cmd (cs : list (call Context Body)) st :
  forallb (fun c => negb (sets_default c)) cs = true →
  _default_cmd (group (perform_seq cs st)) = _default_cmd (group st).
Proof.
  revert st. induction cs as [| c cs IH]; intros st Hcs; [done |].
  cbn in Hcs. apply andb_prop in Hcs as [Hc Hcs].
  change (perform_seq (c :: cs) st) with (perform_seq cs (perform1 c st)).
  rewrite (IH _ Hcs). apply perform_default_cmd.
  by apply negb_true_iff.
Qed.

(** A declaration the decorator of the super class fails raises what that
    decorator raised and leaves the default command as it was, also when
    the declaration was marked as default. *)
Theorem failed_declaration_keeps_default args kwargs f st e bs :
  base_command args (delete "default" kwargs) f (to_base st) = (Raise e, bs) →
  fst (declare args kwargs f st) = Raise e ∧
  _default_cmd (group (snd (declare args kwargs f st))) = _default_cmd (group st) ∧
  to_base (snd (declare args kwargs f st)) = bs.
Proof.
  intros Hb. rewrite declare_eq. destruct (negb _).
  - unfold super. rewrite Hb. by destruct bs.
  - rewrite Hb. by destruct bs.
Qed.

(** A declaration the decorator of the super class carries out returns the
    command built, and makes it the default command exactly when the value
    given for [default] is truthy ([False] when the keyword is absent). *)
Theorem declaration_sets_default_iff_truthy args kwargs f st cmd bs :
  base_command args (delete "default" kwargs) f (to_base st) = (Return cmd, bs) →
  fst (declare args kwargs f st) = Return cmd ∧
  _default_cmd (group (snd (declare args kwargs f st))) =
    (if truthy (from_option id (PyBool false) (kwargs !! "default"))
     then Some cmd else _default_cmd (group st)) ∧
  to_base (snd (declare args kwargs f st)) = bs.
Proof.
  intros Hb. rewrite declare_eq. unfold pop. cbn [fst].
  change (option.default (PyBool false) (kwargs !! "default"))
    with (from_option id (PyBool false) (kwargs !! "default")).
  destruct (truthy _); cbn [negb].
  - rewrite Hb. by destruct bs.
  - unfold super. rewrite Hb. by destruct bs.
Qed.

(** [set_default_command] touches nothing the super classes own, and the
    command it is given is what a failed resolution falls back to from
    then on, whatever the default was before. *)
Theorem set_default_command_then_resolve cmd ctx args st e bs :
  base_resolve_command ctx args (to_base st) = (Raise e, bs) →
  is_Exception e = true →
  to_base (snd (set_default_command cmd st)) = to_base st ∧
  fst ((set_default_command cmd ;; resolve ctx args) st)
    = Return (Some (name cmd), Some cmd, args).
Proof.
  intros Hb He. split; [reflexivity |].
  rewrite (bind_Return _ _ _ tt (snd (set_default_command cmd st)));
    [| reflexivity].
  exact (fallback_result_eq _ _ _ base_resolve_command ctx args
           (snd (set_default_command cmd st)) e bs Hb He).
Qed.

End MoreDispatcherProperties.

Section ConstructorProperties.

Variable BaseGroup World Body : Type.
Variable base_init base_init' :
  pyval → pyval → pyval → pyval → gmap string pyval →
  heap → World → outcome BaseGroup * (heap * World).
Variable base_command base_command' :
  list pyval → gmap string pyval → Body → B BaseGroup World Command.

(** The attributes that reach the initialiser of the super class. *)
Lemma init_attrs_lookup (attrs : gmap string pyval) k :
  k ≠ "debug" → k ≠ "custom_parser" → k ≠ "default_if_no_args" →
  delete "default_if_no_args" (delete "custom_parser" (delete "debug" attrs)) !! k
  = attrs !! k.
Proof. intros. by rewrite !lookup_delete_ne. Qed.

(** A caller that passes [shell_cls] gets a TypeError, whatever else it
    passes: the initialiser of the super class is not run, no list object
    and nothing outside is touched. *)
Theorem init_duplicate_shell_cls
    prompt intro hist_file on_finished attrs h w lg v :
  attrs !! "shell_cls" = Some v →
  ∃ lg',
    init base_init prompt intro hist_file on_finished attrs h w lg =
    (Raise (TypeError "got multiple values for keyword argument 'shell_cls'"),
     (h, w, lg ++ lg')).
Proof.
  intros Hv. unfold init, pop. cbn [fst snd].
  rewrite init_attrs_lookup, Hv by done.
  eexists. rewrite <- app_assoc. reflexivity.
Qed.

(** [debug], [custom_parser] and [default_if_no_args] stop at the
    constructor and [shell_cls] is always ClickShellWithDefault: two
    initialisers of the super class that agree on such attributes give the
    same construction. *)
Theorem init_consumes_own_keywords
    prompt intro hist_file on_finished attrs h w lg :
  (∀ a, a !! "debug" = None → a !! "custom_parser" = None →
        a !! "default_if_no_args" = None →
        a !! "shell_cls" = Some (PyClass "ClickShellWithDefault") →
        base_init prompt intro hist_file on_finished a h w
        = base_init' prompt intro hist_file on_finished a h w) →
  init base_init prompt intro hist_file on_finished attrs h w lg
  = init base_init' prompt intro hist_file on_finished attrs h w lg.
Proof.
  intros Hagree. unfold init, pop. cbn [fst snd].
  destruct (_ !! "shell_cls"); [reflexivity |].
  rewrite Hagree; [reflexivity | | | |].
  - rewrite lookup_insert_ne, !lookup_delete_ne by done.
    apply lookup_delete_eq.
  - rewrite lookup_insert_ne, lookup_delete_ne by done.
    apply lookup_delete_eq.
  - rewrite lookup_insert_ne by done. apply lookup_delete_eq.
  - apply lookup_insert_eq.
Qed.

(** The [default] keyword stops at [command]: two decorators of the super
    class that agree on keywords without [default] give the same
    declaration. *)
Theorem command_consumes_default args kwargs f (st : state BaseGroup World) :
  (∀ kw bs, kw !! "default" = None →
            base_command args kw f bs = base_command' args kw f bs) →
  (let* decorator := command base_command args kwargs in decorator f) st
  = (let* decorator := command base_command' args kwargs in decorator f) st.
Proof.
  intros Hagree. rewrite !declare_eq. unfold super.
  by rewrite (Hagree _ (to_base st)) by apply lookup_delete_eq.
Qed.

End ConstructorProperties.

Section FactoryProperties.

Variable Decorator : Type.
Variable click_command : pyval → gmap string pyval → Decorator.

(** [click_group_with_default] calls [click.command] with a [cls] in every
    case: the caller's when there is one, ClickGroupWithDefault otherwise;
    the other attributes go through as they are, and what is logged is the
    attributes as given. *)
Theorem click_group_with_default_cls name attrs :
  ∃ attrs',
    click_group_with_default click_command name attrs
      = (attrs, click_command name attrs') ∧
    attrs' !! "cls"
      = Some (from_option id (PyClass "ClickGroupWithDefault") (attrs !! "cls")) ∧
    ∀ k, k ≠ "cls" → attrs' !! k = attrs !! k.
Proof.
  unfold click_group_with_default, setdefault.
  destruct (attrs !! "cls") as [c |] eqn:Hcls.
  - exists attrs. by rewrite Hcls.
  - eexists. split; [reflexivity |]. split.
    + by rewrite lookup_insert_eq.
    + intros k Hk. by rewrite lookup_insert_ne.
Qed.

End FactoryProperties.

(** * More properties of the loop *)

Section MoreLoopProperties.

Variable BaseGroup World : Type.
Variable base_precmd : string → B BaseGroup World string.
Variable base_onecmd :
  (string → M BaseGroup World pyval) → string → M BaseGroup World pyval.
Variable base_default : pyval → B BaseGroup World pyval.

Implicit Types (st : state BaseGroup World).

Local Abbreviation hook := (default base_onecmd base_default).
Local Abbreviation interpret := (onecmd base_onecmd base_default).

(** [precmd] gives the line the super class gives and leaves the state
    the super class leaves; it logs the line it was given and, when the
    super class returns, the line returned. *)
Theorem precmd_transparent line st :
  fst (precmd base_precmd line st) = fst (base_precmd line (to_base st)) ∧
  to_base (snd (precmd base_precmd line st))
    = snd (base_precmd line (to_base st)) ∧
  log (snd (precmd base_precmd line st))
    = log st ++ LogRecord INFO (Msg_running_precmd line)
             :: match fst (base_precmd line (to_base st)) with
                | Return l => [LogRecord INFO (Msg_gives (PyStr l))]
                | _ => []
                end.
Proof.
  run. rewrite to_base_logged.
  destruct (base_precmd line (to_base st)) as [[l|e|] [b h w]]; cbn;
    rewrite <- ?app_assoc; done.
Qed.

(** What [onecmd] does with one round of recursion left to spend. *)
Lemma onecmd_S fuel line st :
  interpret (S fuel) line st =
  match base_onecmd (default_with base_default (interpret fuel)) line
          (logged st [LogRecord INFO (Msg_running_onecmd line)]) with
  | (Return v, st') => (Return v, logged st' [LogRecord INFO (Msg_gives v)])
  | (Raise e, st') => (Raise e, st')
  | (OutOfFuel, st') => (OutOfFuel, st')
  end.
Proof. reflexivity. Qed.

(** Without a default command, or with one whose name is empty, what the
    hook does is the same for every line: the line is not what the super
    class is called on. *)
Theorem default_ignores_line fuel1 fuel2 line1 line2 st :
  default_cmd_name (group st) = None ∨ default_cmd_name (group st) = Some "" →
  hook fuel1 line1 st = hook fuel2 line2 st.
Proof.
  intros H.
  by rewrite !(default_without_default_cmd _ _ base_onecmd base_default _ _ st H).
Qed.

(** A line the super class hands to the hook, with no default command:
    [onecmd] returns what the unmatched-line handling of the super class
    returns on the builtin [str], in the state it leaves; one round of
    recursion is enough. *)
Theorem onecmd_unmatched_no_default fuel line line' st :
  let st1 := logged st [LogRecord INFO (Msg_running_onecmd line)] in
  let out := interpret (S fuel) line st in
  default_cmd_name (group st) = None →
  (∀ h, base_onecmd h line st1 = h line' st1) →
  fst out = fst (base_default builtin_str (to_base st)) ∧
  to_base (snd out) = snd (base_default builtin_str (to_base st)) ∧
  log (snd out)
    = log st ++ LogRecord INFO (Msg_running_onecmd line)
             :: match fst out with
                | Return v => [LogRecord INFO (Msg_gives v)]
                | _ => []
                end.
Proof.
  intros st1 out HD Hhand. subst out. rewrite onecmd_S. fold st1.
  rewrite Hhand.
  change (default_with base_default (interpret fuel) line' st1)
    with (hook fuel line' st1).
  rewrite (default_without_default_cmd _ _ base_onecmd base_default fuel line' st1)
    by (left; exact HD).
  unfold super. change (to_base st1) with (to_base st).
  destruct (base_default builtin_str (to_base st)) as [[v|e|] [b h w]]; cbn;
    rewrite <- ?app_assoc; done.
Qed.

Lemma onecmd_regress n st :
  default_cmd_name (group st) = Some n → n ≠ "" →
  (∀ h l evs, ∃ l', base_onecmd h (n +:+ " " +:+ l) (logged st evs)
                    = h l' (logged st evs)) →
  ∀ fuel l evs, fst (interpret fuel (n +:+ " " +:+ l) (logged st evs))
                = Raise RecursionError.
Proof.
  intros Hn Hne Hhand fuel.
  induction fuel as [| fuel IH]; intros l evs; [reflexivity |].
  rewrite onecmd_S, logged_logged.
  set (evs1 := evs ++ [LogRecord INFO (Msg_running_onecmd (n +:+ " " +:+ l))]).
  destruct (Hhand (default_with base_default (interpret fuel)) l evs1)
    as [l' ->].
  change (default_with base_default (interpret fuel) l' (logged st evs1))
    with (hook fuel l' (logged st evs1)).
  rewrite (default_with_default_cmd _ _ base_onecmd base_default fuel l'
             (logged st evs1) n Hn Hne).
  rewrite logged_logged.
  specialize (IH l' (evs1 ++ [LogRecord INFO
                                (Msg_unknown_trying l' (n +:+ " " +:+ l'))])).
  destruct (interpret fuel (n +:+ " " +:+ l') _) as [r s'].
  cbn in IH. by subst r.
Qed.

(** When the super class matches no line that starts with the name of the
    default command, and hands every such line to the hook, the hook puts
    the name in front of the line again and again and ends in
    RecursionError, whatever the recursion limit. *)
Theorem default_regress n fuel line st :
  default_cmd_name (group st) = Some n → n ≠ "" →
  (∀ h l evs, ∃ l', base_onecmd h (n +:+ " " +:+ l) (logged st evs)
                    = h l' (logged st evs)) →
  fst (hook fuel line st) = Raise RecursionError.
Proof.
  intros Hn Hne Hhand.
  rewrite (default_with_default_cmd _ _ base_onecmd base_default fuel line st n Hn Hne).
  by apply (onecmd_regress n st Hn Hne Hhand fuel line).
Qed.

End MoreLoopProperties.

(** * The additional properties on the reference collaborator *)

Lemma resolve_command_without_default_witness :
  fst (wrapped_resolve_command tt 0 (no_default {[0 := ["bogus"; "-x"]]}))
    = Return (None, None, 0) ∧
  to_base (snd (wrapped_resolve_command tt 0
                  (no_default {[0 := ["bogus"; "-x"]]})))
    = to_base (no_default {[0 := ["bogus"; "-x"]]}).
Proof.
  apply (resolve_command_without_default _ _ _ base_resolve_command tt 0
           (no_default {[0 := ["bogus"; "-x"]]})
           (UsageError "No such command 'bogus'."));
    vm_compute; reflexivity.
Defined.

Lemma calls_keep_default_cmd_witness :
  _default_cmd
    (group (perform_all base_command base_parse_args base_resolve_command
              base_invoke read_only_calls (add_default {[0 := ["3"; "4"]]})))
  = _default_cmd (group (add_default {[0 := ["3"; "4"]]})).
Proof.
  apply (calls_keep_default_cmd _ _ _ _ base_command base_parse_args
           base_resolve_command base_invoke read_only_calls).
  vm_compute. reflexivity.
Defined.

Lemma failed_declaration_keeps_default_witness :
  fst ((let* decorator :=
          command base_command_checked []
            {["default" := PyBool true; "bogus" := PyInt 1]} in
        decorator echo) (add_default ∅))
    = Raise (TypeError "unexpected keyword argument") ∧
  _default_cmd
    (group (snd ((let* decorator :=
                    command base_command_checked []
                      {["default" := PyBool true; "bogus" := PyInt 1]} in
                  decorator echo) (add_default ∅))))
    = _default_cmd (group (add_default ∅)).
Proof.
  destruct (failed_declaration_keeps_default _ _ _ base_command_checked []
              {["default" := PyBool true; "bogus" := PyInt 1]} echo
              (add_default ∅) (TypeError "unexpected keyword argument")
              (to_base (add_default ∅))) as (H1 & H2 & _).
  - vm_compute. reflexivity.
  - split; [exact H1 | exact H2].
Defined.

Lemma declaration_sets_default_iff_truthy_witness :
  _default_cmd
    (group (snd ((let* decorator :=
                    command base_command [] {["default" := PyInt 1]} in
                  decorator echo) (start ∅))))
    = Some echo_cmd ∧
  _default_cmd
    (group (snd ((let* decorator :=
                    command base_command [] {["default" := PyStr ""]} in
                  decorator echo) (add_default ∅))))
    = _default_cmd (group (add_default ∅)).
Proof.
  split.
  - destruct (declaration_sets_default_iff_truthy _ _ _ base_command []
                {["default" := PyInt 1]} echo (start ∅) echo_cmd
                (snd (base_command [] ∅ echo (to_base (start ∅)))))
      as (_ & H & _); [vm_compute; reflexivity | exact H].
  - destruct (declaration_sets_default_iff_truthy _ _ _ base_command []
                {["default" := PyStr ""]} echo (add_default ∅)
                {| name := "echo"; ident := 1 |}
                (snd (base_command [] ∅ echo (to_base (add_default ∅)))))
      as (_ & H & _); [vm_compute; reflexivity | exact H].
Defined.

Lemma set_default_command_then_resolve_witness :
  fst ((set_default_command add_cmd ;; wrapped_resolve_command tt 0)
         (echo_default {[0 := ["3"; "4"]]}))
  = Return (Some "add", Some add_cmd, 0).
Proof.
  apply (set_default_command_then_resolve _ _ _ base_resolve_command add_cmd
           tt 0 (echo_default {[0 := ["3"; "4"]]})
           (UsageError "No such command '3'.")
           (to_base (echo_default {[0 := ["3"; "4"]]})));
    vm_compute; reflexivity.
Defined.

Lemma init_duplicate_shell_cls_witness :
  ∃ lg',
    init base_init PyNone PyNone PyNone PyNone
      {["shell_cls" := PyClass "ClickShell"; "debug" := PyBool true]} ∅ [] []
    = (Raise (TypeError "got multiple values for keyword argument 'shell_cls'"),
       (∅, [], [] ++ lg')).
Proof.
  apply (init_duplicate_shell_cls _ _ base_init PyNone PyNone PyNone PyNone
           {["shell_cls" := PyClass "ClickShell"; "debug" := PyBool true]}
           ∅ [] [] (PyClass "ClickShell")).
  vm_compute. reflexivity.
Defined.

Lemma init_consumes_own_keywords_witness :
  init base_init (PyStr "sample $ ") PyNone PyNone PyNone sample_attrs ∅ [] []
  = init base_init_strict (PyStr "sample $ ") PyNone PyNone PyNone
      sample_attrs ∅ [] [].
Proof.
  apply (init_consumes_own_keywords _ _ base_init base_init_strict).
  intros a Hdebug _ _ _. unfold base_init_strict. by rewrite Hdebug.
Defined.

Lemma command_consumes_default_witness :
  (let* decorator := command base_command [] as_default in
   decorator echo) (start ∅)
  = (let* decorator := command base_command_strict [] as_default in
     decorator echo) (start ∅).
Proof.
  apply (command_consumes_default _ _ _ base_command base_command_strict).
  intros kw bs Hkw. unfold base_command_strict. by rewrite Hkw.
Defined.

Lemma click_group_with_default_cls_witness :
  ∃ attrs',
    click_group_with_default (fun n a => (n, a)) PyNone
      {["prompt" := PyStr "sample $ "; "debug" := PyBool true]}
    = ({["prompt" := PyStr "sample $ "; "debug" := PyBool true]},
       (PyNone, attrs')) ∧
    attrs' !! "cls" = Some (PyClass "ClickGroupWithDefault") ∧
    attrs' !! "debug" = Some (PyBool true).
Proof.
  destruct (click_group_with_default_cls _ (fun n a => (n, a)) PyNone
              {["prompt" := PyStr "sample $ "; "debug" := PyBool true]})
    as (attrs' & H1 & H2 & H3).
  exists attrs'. split; [exact H1 |]. split; [exact H2 |].
  rewrite H3; [vm_compute; reflexivity | discriminate].
Defined.

Lemma default_ignores_line_witness :
  wrapped_default 1 "bogus" (no_default ∅)
  = wrapped_default 5 "something else" (no_default ∅).
Proof.
  apply (default_ignores_line _ _ base_onecmd base_default).
  left. vm_compute. reflexivity.
Defined.

Lemma onecmd_unmatched_no_default_witness :
  fst (onecmd base_onecmd base_default 1 " bogus  " (no_default ∅))
    = fst (base_default builtin_str (to_base (no_default ∅))) ∧
  to_base (snd (onecmd base_onecmd base_default 1 " bogus  " (no_default ∅)))
    = snd (base_default builtin_str (to_base (no_default ∅))).
Proof.
  destruct (onecmd_unmatched_no_default _ _ base_onecmd base_default 0
              " bogus  " "bogus" (no_default ∅)) as (H1 & H2 & _).
  - vm_compute. reflexivity.
  - intros h. vm_compute. reflexivity.
  - split; [exact H1 | exact H2].
Defined.

Lemma default_regress_witness :
  fst (wrapped_default 7 "3 4" (dotted_default ∅)) = Raise RecursionError.
Proof.
  apply (default_regress _ _ base_onecmd base_default "my.cmd" 7 "3 4"
           (dotted_default ∅)).
  - vm_compute. reflexivity.
  - discriminate.
  - intros h l evs. unfold base_onecmd.
    destruct (parseline_my_cmd (" " +:+ l)) as (a & y & Hp).
    exists ("my.cmd" +:+ y).
    change ("my.cmd" +:+ " " +:+ l) with ("my.cmd" +:+ (" " +:+ l)).
    rewrite Hp. reflexivity.
Defined.
